(** * AutomaterializeDaemonStatusTag

    A shallow embedding of
    [js_modules/dagster-ui/packages/ui-core/src/assets/AutomaterializeDaemonStatusTag.tsx]
    and the properties of the element tree it returns.

    The component calls one hook, destructures [paused] out of the hook's
    result and returns a [Tooltip] around a [Link] around a [Tag]. *)

From Stdlib Require Import String List Bool.
Import ListNotations.
Local Open Scope string_scope.
Set Warnings "-register-all".

(** ** Element trees *)

(** The three components the file imports and instantiates. *)
Inductive Component : Type :=
| Tooltip
| Link
| Tag.

(** Values passed as props: string literals, booleans, and object literals
    (the [style] prop). *)
Inductive PropValue : Type :=
| VString (s : string)
| VBool (b : bool)
| VObject (fields : list (string * PropValue)).

(** A JSX node: a text child or an element with its props and children,
    both in source order. *)
Inductive Node : Type :=
| Text (s : string)
| Element (c : Component) (props : list (string * PropValue)) (children : list Node).

(** ** Rendering with hooks

    A hook reads, and may update, whatever React keeps for the component
    between renders; [W] stands for that store. A render is a function from
    the store before to a result and the store after. *)

Definition Render (W A : Type) : Type := W -> A * W.

Definition ret {W A : Type} (a : A) : Render W A :=
  fun w => (a, w).

Definition bind {W A B : Type} (m : Render W A) (f : A -> Render W B) : Render W B :=
  fun w => let '(a, w') := m w in f a w'.

Notation "x <- m ;; k" := (bind m (fun x => k))
  (at level 61, m at next level, right associativity).

(** The object returned by [useAutomaterializeDaemonStatus]. The component
    reads the field [paused] only; [rest] stands for every other field of
    the object, whatever they are. *)
Record DaemonStatus (Rest : Type) : Type := mkDaemonStatus {
  paused : bool;
  rest : Rest
}.
Arguments mkDaemonStatus {Rest} _ _.
Arguments paused {Rest} _.
Arguments rest {Rest} _.

(** ** Reading an element tree *)

Fixpoint lookup_prop (name : string) (props : list (string * PropValue)) : option PropValue :=
  match props with
  | [] => None
  | (k, v) :: tl =>
      match lookup_prop name tl with
      | Some v' => Some v'          (* a later attribute of the same name wins *)
      | None => if String.eqb k name then Some v else None
      end
  end.

Definition prop (name : string) (n : Node) : option PropValue :=
  match n with
  | Text _ => None
  | Element _ props _ => lookup_prop name props
  end.

Definition component_of (n : Node) : option Component :=
  match n with
  | Text _ => None
  | Element c _ _ => Some c
  end.

Definition only_child (n : Node) : option Node :=
  match n with
  | Element _ _ [ch] => Some ch
  | _ => None
  end.

Definition text_of (n : Node) : option string :=
  match n with
  | Text s => Some s
  | Element _ _ _ => None
  end.

Definition is_component (c : Component) (n : Node) : bool :=
  match component_of n, c with
  | Some Tooltip, Tooltip => true
  | Some Link, Link => true
  | Some Tag, Tag => true
  | _, _ => false
  end.

Definition expect (c : Component) (n : Node) : option Node :=
  if is_component c n then Some n else None.

Definition obind {A B : Type} (o : option A) (f : A -> option B) : option B :=
  match o with
  | Some a => f a
  | None => None
  end.

(** The three elements of the rendered tree, outermost first, and the text
    inside the innermost one. *)
Definition tooltip_of (out : Node) : option Node := expect Tooltip out.

Definition link_of (out : Node) : option Node :=
  obind (obind (tooltip_of out) only_child) (expect Link).

Definition tag_of (out : Node) : option Node :=
  obind (obind (link_of out) only_child) (expect Tag).

Definition label_of (out : Node) : option string :=
  obind (obind (tag_of out) only_child) text_of.

Definition tooltip_prop (name : string) (out : Node) : option PropValue :=
  obind (tooltip_of out) (prop name).

Definition link_prop (name : string) (out : Node) : option PropValue :=
  obind (link_of out) (prop name).

Definition tag_prop (name : string) (out : Node) : option PropValue :=
  obind (tag_of out) (prop name).

(** The observable outcome of a render, field by field. *)
Record Outcome : Type := mkOutcome {
  label : string;
  icon : string;
  intent : string;
  tooltipShown : bool;
  tooltipText : string;
  link : string
}.

Definition as_string (v : PropValue) : option string :=
  match v with
  | VString s => Some s
  | _ => None
  end.

Definition as_bool (v : PropValue) : option bool :=
  match v with
  | VBool b => Some b
  | _ => None
  end.

Definition outcome_of (out : Node) : option Outcome :=
  obind (label_of out) (fun l =>
  obind (obind (tag_prop "icon" out) as_string) (fun i =>
  obind (obind (tag_prop "intent" out) as_string) (fun t =>
  obind (obind (tooltip_prop "canShow" out) as_bool) (fun s =>
  obind (obind (tooltip_prop "content" out) as_string) (fun c =>
  obind (obind (link_prop "to" out) as_string) (fun h =>
  Some (mkOutcome l i t s c h))))))).

Definition outcome_paused : Outcome :=
  mkOutcome "Auto-materialize off" "toggle_off" "warning" true
    "Automation condition evaluation is paused. New materializations will not be triggered by automation conditions."
    "/health".

Definition outcome_running : Outcome :=
  mkOutcome "Auto-materialize on" "toggle_on" "success" false "" "/health".

(** ** The component *)

Section StatusTag.

Variables W Rest : Type.

(** The hook imported from [./useAutomaterializeDaemonStatus]. *)
Variable useAutomaterializeDaemonStatus : Render W (DaemonStatus Rest).

Definition AutomaterializeDaemonStatusTag : Render W Node :=
  status <- useAutomaterializeDaemonStatus ;;
  let paused := paused status in
  ret
    (Element Tooltip
       [ ("content",
          VString
            (if paused
             then "Automation condition evaluation is paused. New materializations will not be triggered by automation conditions."
             else ""));
         ("canShow", VBool paused) ]
       [ Element Link
           [ ("to", VString "/health");
             ("style", VObject [ ("outline", VString "none") ]) ]
           [ Element Tag
               [ ("icon", VString (if paused then "toggle_off" else "toggle_on"));
                 ("intent", VString (if paused then "warning" else "success")) ]
               [ Text (if paused then "Auto-materialize off" else "Auto-materialize on") ] ] ]).

(** The value of [paused] the hook hands to a render started in store [w],
    and the tree that render returns. *)
Definition paused_at (w : W) : bool :=
  paused (fst (useAutomaterializeDaemonStatus w)).

Definition rendered (w : W) : Node :=
  fst (AutomaterializeDaemonStatusTag w).

End StatusTag.

Arguments AutomaterializeDaemonStatusTag {W Rest} _ _.
Arguments paused_at {W Rest} _ _.
Arguments rendered {W Rest} _ _.

(** ** A status provider to run the component on

    The store is a poll counter; the daemon is reported paused on even
    polls, and the remaining field of the result is a [loading] flag. *)
Definition pollingStatus : Render nat (DaemonStatus bool) :=
  fun n => (mkDaemonStatus (Nat.even n) (Nat.leb n 0), S n).

(** A provider that always answers with the same object. *)
Definition fixedStatus {Rest : Type} (s : DaemonStatus Rest) : Render unit (DaemonStatus Rest) :=
  ret s.

(** ** Shape, elements and successive renders *)

(** What is left of a tree when prop values and text are erased: the
    components, the names of the props each receives, in order, and the
    nesting. *)
Inductive Shape : Type :=
| SText
| SElement (c : Component) (names : list string) (children : list Shape).

Fixpoint shape (n : Node) : Shape :=
  match n with
  | Text _ => SText
  | Element c props children => SElement c (map fst props) (map shape children)
  end.

(** Every element of a tree, the root first. *)
Fixpoint elements (n : Node) : list Node :=
  match n with
  | Text _ => []
  | Element _ _ children => n :: flat_map elements children
  end.

Definition props_of (n : Node) : list (string * PropValue) :=
  match n with
  | Text _ => []
  | Element _ props _ => props
  end.

(** Reading a prop with the first attribute of that name winning, the
    opposite convention to [lookup_prop]. *)
Fixpoint lookup_first (name : string) (props : list (string * PropValue)) : option PropValue :=
  match props with
  | [] => None
  | (k, v) :: tl => if String.eqb k name then Some v else lookup_first name tl
  end.

(** [n] renders one after the other, each starting from the store the
    previous one left; the results in order. *)
Fixpoint repeatM {W A : Type} (n : nat) (m : Render W A) : Render W (list A) :=
  match n with
  | O => ret []
  | S k => a <- m ;; l <- repeatM k m ;; ret (a :: l)
  end.

(** The tree the component returns when its hook answers [s]. *)
Definition tree_for {Rest : Type} (s : DaemonStatus Rest) : Node :=
  rendered (fixedStatus s) tt.

(** ** Properties of the rendered tree *)

Ltac run_render hook w :=
  unfold rendered, paused_at, AutomaterializeDaemonStatusTag, bind, ret;
  destruct (hook w) as [[p r] w']; cbn.

Section StatusTagFacts.

Variables W Rest : Type.
Variable useStatus : Render W (DaemonStatus Rest).

Abbreviation out := (rendered useStatus).
Abbreviation flag := (paused_at useStatus).

(** The root of the tree is the tooltip, and the three elements and the
    label are all present. *)
Lemma rendered_shape (w : W) :
  component_of (out w) = Some Tooltip /\
  obind (link_of (out w)) component_of = Some Link /\
  obind (tag_of (out w)) component_of = Some Tag /\
  label_of (out w) <> None.
Proof.
  run_render useStatus w. repeat split; discriminate.
Qed.

(** C1: the outermost element is the [Tooltip]; its [canShow] prop is the
    value of [paused], and its [content] prop is the fixed warning sentence
    when [paused] is true and the empty string when it is false. *)
Theorem tooltip_canShow_and_content (w : W) :
  component_of (out w) = Some Tooltip /\
  tooltip_prop "canShow" (out w) = Some (VBool (flag w)) /\
  tooltip_prop "content" (out w) =
    Some (VString
            (if flag w
             then "Automation condition evaluation is paused. New materializations will not be triggered by automation conditions."
             else "")).
Proof.
  run_render useStatus w. destruct p; repeat split.
Qed.

(** C2: the text inside the tag is "Auto-materialize off" exactly when
    [paused] is true, and "Auto-materialize on" exactly when it is false. *)
Theorem label_off_iff_paused (w : W) :
  (label_of (out w) = Some "Auto-materialize off" <-> flag w = true) /\
  (label_of (out w) = Some "Auto-materialize on" <-> flag w = false).
Proof.
  run_render useStatus w.
  destruct p; cbn; repeat split; intros H; try reflexivity; discriminate H.
Qed.

(** C3: the [icon] prop of the [Tag] is [toggle_off] when [paused] is true
    and [toggle_on] when it is false. *)
Theorem tag_icon (w : W) :
  tag_prop "icon" (out w) =
    Some (VString (if flag w then "toggle_off" else "toggle_on")).
Proof.
  run_render useStatus w. destruct p; reflexivity.
Qed.

(** C4: the [intent] prop of the [Tag] is [warning] when [paused] is true
    and [success] when it is false. *)
Theorem tag_intent (w : W) :
  tag_prop "intent" (out w) =
    Some (VString (if flag w then "warning" else "success")).
Proof.
  run_render useStatus w. destruct p; reflexivity.
Qed.

(** C5: the [to] prop of the [Link] is the literal "/health", whatever
    [paused] is. *)
Theorem link_to_health (w : W) :
  link_prop "to" (out w) = Some (VString "/health").
Proof.
  run_render useStatus w. reflexivity.
Qed.

(** C6: a render that reads [paused = true] has the outcome
    [outcome_paused], and a render that reads [paused = false] has the
    outcome [outcome_running], field for field. *)
Theorem paused_and_running_scenarios (w : W) :
  (flag w = true -> outcome_of (out w) = Some outcome_paused) /\
  (flag w = false -> outcome_of (out w) = Some outcome_running).
Proof.
  run_render useStatus w.
  split; intros ->; reflexivity.
Qed.

(** C7: two renders that read the same value of [paused] return the same
    tree, from whatever stores they start; and the component keeps nothing
    of its own between renders: the store it leaves is the one its hook
    left. *)
Theorem render_deterministic (w1 w2 : W) :
  flag w1 = flag w2 ->
  out w1 = out w2 /\
  outcome_of (out w1) = outcome_of (out w2) /\
  snd (AutomaterializeDaemonStatusTag useStatus w1) = snd (useStatus w1) /\
  snd (AutomaterializeDaemonStatusTag useStatus w2) = snd (useStatus w2).
Proof.
  unfold rendered, paused_at, AutomaterializeDaemonStatusTag, bind, ret.
  destruct (useStatus w1) as [[p1 r1] w1'], (useStatus w2) as [[p2 r2] w2'].
  cbn. intros ->. repeat split.
Qed.

(** C8: the [style] prop of the [Link] is the object [{outline: 'none'}],
    whatever [paused] is. *)
Theorem link_style_outline_none (w : W) :
  link_prop "style" (out w) = Some (VObject [("outline", VString "none")]).
Proof.
  run_render useStatus w. reflexivity.
Qed.

(** C9: the five outputs that vary move together: the intent is [warning]
    iff the icon is [toggle_off], iff the label is "Auto-materialize off",
    iff [canShow] is true, iff the tooltip content is a non-empty string. *)
Theorem outputs_coupled (w : W) :
  (tag_prop "intent" (out w) = Some (VString "warning") <->
   tag_prop "icon" (out w) = Some (VString "toggle_off")) /\
  (tag_prop "icon" (out w) = Some (VString "toggle_off") <->
   label_of (out w) = Some "Auto-materialize off") /\
  (label_of (out w) = Some "Auto-materialize off" <->
   tooltip_prop "canShow" (out w) = Some (VBool true)) /\
  (tooltip_prop "canShow" (out w) = Some (VBool true) <->
   exists s, tooltip_prop "content" (out w) = Some (VString s) /\ s <> "").
Proof.
  run_render useStatus w.
  destruct p; cbn; repeat split; intros H;
    try reflexivity; try discriminate H.
  - eexists; split; [reflexivity | discriminate].
  - destruct H as [s [E N]]. injection E as <-. now elim N.
Qed.

End StatusTagFacts.

(** C10: the tree depends on the hook's result through [paused] alone: two
    status providers, over any stores and with any other fields in their
    results, give the same tree whenever their results agree on [paused]. *)
Theorem render_depends_on_paused_only
    (W1 W2 Rest1 Rest2 : Type)
    (use1 : Render W1 (DaemonStatus Rest1))
    (use2 : Render W2 (DaemonStatus Rest2))
    (w1 : W1) (w2 : W2) :
  paused (fst (use1 w1)) = paused (fst (use2 w2)) ->
  fst (AutomaterializeDaemonStatusTag use1 w1) =
  fst (AutomaterializeDaemonStatusTag use2 w2).
Proof.
  unfold AutomaterializeDaemonStatusTag, bind, ret.
  destruct (use1 w1) as [[p1 r1] w1'], (use2 w2) as [[p2 r2] w2'].
  cbn. intros ->. reflexivity.
Qed.

(** ** Runs on concrete providers *)

(** The paused scenario on a provider fixed at [paused = true], the running
    one on a provider fixed at [paused = false]. *)
Lemma paused_and_running_scenarios_witness :
  outcome_of (rendered (fixedStatus (mkDaemonStatus true 7)) tt) = Some outcome_paused /\
  outcome_of (rendered (fixedStatus (mkDaemonStatus false 7)) tt) = Some outcome_running.
Proof.
  split.
  - apply (proj1 (paused_and_running_scenarios unit nat (fixedStatus (mkDaemonStatus true 7)) tt)).
    reflexivity.
  - apply (proj2 (paused_and_running_scenarios unit nat (fixedStatus (mkDaemonStatus false 7)) tt)).
    reflexivity.
Defined.

(** Polls 0 and 2 both report the daemon paused; the two renders agree and
    each leaves the counter where the hook left it. *)
Lemma render_deterministic_witness :
  paused_at pollingStatus 0 = paused_at pollingStatus 2 /\
  rendered pollingStatus 0 = rendered pollingStatus 2 /\
  outcome_of (rendered pollingStatus 0) = outcome_of (rendered pollingStatus 2) /\
  snd (AutomaterializeDaemonStatusTag pollingStatus 0) = 1 /\
  snd (AutomaterializeDaemonStatusTag pollingStatus 2) = 3.
Proof.
  split; [reflexivity |].
  apply (render_deterministic nat bool pollingStatus 0 2). reflexivity.
Defined.

(** Two results that agree on [paused] and differ in every other respect:
    one from the polling provider (loading flag set), one fixed with a
    string in its remaining field. *)
Lemma render_depends_on_paused_only_witness :
  rest (fst (pollingStatus 0)) = true /\
  rest (fst (fixedStatus (mkDaemonStatus true "idle") tt)) = "idle" /\
  fst (AutomaterializeDaemonStatusTag pollingStatus 0) =
  fst (AutomaterializeDaemonStatusTag (fixedStatus (mkDaemonStatus true "idle")) tt).
Proof.
  split; [reflexivity |]. split; [reflexivity |].
  apply (render_depends_on_paused_only nat unit bool string
           pollingStatus (fixedStatus (mkDaemonStatus true "idle")) 0 tt).
  reflexivity.
Defined.

(** ** Further properties of the rendered tree *)

(** With no name repeated, the two reading conventions agree. *)
Lemma lookup_prop_first (name : string) (props : list (string * PropValue)) :
  NoDup (map fst props) ->
  lookup_prop name props = lookup_first name props.
Proof.
  induction props as [| [k v] tl IH]; intros ND; [reflexivity |].
  cbn in ND. inversion ND as [| ? ? Hnotin ND']; subst.
  cbn. rewrite (IH ND').
  destruct (String.eqb k name) eqn:E.
  - apply String.eqb_eq in E. subst k.
    assert (Hnone : lookup_first name tl = None).
    { clear -Hnotin. induction tl as [| [k' v'] tl IH]; [reflexivity |].
      cbn. destruct (String.eqb k' name) eqn:E'.
      - apply String.eqb_eq in E'. subst k'. exfalso. apply Hnotin. now left.
      - apply IH. intros Hin. apply Hnotin. now right. }
    now rewrite Hnone.
  - now destruct (lookup_first name tl).
Qed.

(** X1: the tree tells the state: if two renders, of any two status
    providers, return the same tree, they read the same value of [paused]. *)
Theorem same_tree_same_paused
    (W1 W2 Rest1 Rest2 : Type)
    (use1 : Render W1 (DaemonStatus Rest1))
    (use2 : Render W2 (DaemonStatus Rest2))
    (w1 : W1) (w2 : W2) :
  rendered use1 w1 = rendered use2 w2 ->
  paused_at use1 w1 = paused_at use2 w2.
Proof.
  unfold rendered, paused_at, AutomaterializeDaemonStatusTag, bind, ret.
  destruct (use1 w1) as [[p1 r1] w1'], (use2 w2) as [[p2 r2] w2'].
  cbn. destruct p1, p2; intros H; try reflexivity; discriminate H.
Qed.


(** X3: the shape of the tree is the same in every render: a [Tooltip]
    given [content] and [canShow], with one child, a [Link] given [to] and
    [style], with one child, a [Tag] given [icon] and [intent], with one
    child, a text. Nothing else is passed and nothing is added or dropped
    when [paused] changes. *)
Theorem rendered_tree_shape
    (W Rest : Type) (useStatus : Render W (DaemonStatus Rest)) (w : W) :
  shape (rendered useStatus w) =
  SElement Tooltip ["content"; "canShow"]
    [SElement Link ["to"; "style"]
       [SElement Tag ["icon"; "intent"] [SText]]].
Proof.
  run_render useStatus w. reflexivity.
Qed.

(** X4: no element of the tree is given the same prop twice, so reading any
    prop of any element gives the same answer whether the first or the last
    attribute of a name is taken. *)
Theorem props_never_repeated
    (W Rest : Type) (useStatus : Render W (DaemonStatus Rest)) (w : W) :
  Forall
    (fun e =>
       NoDup (map fst (props_of e)) /\
       forall name, prop name e = lookup_first name (props_of e))
    (elements (rendered useStatus w)).
Proof.
  assert (two : forall a b : string, a <> b -> NoDup [a; b]).
  { intros a b Hab. constructor.
    - intros [E | []]. now apply Hab.
    - constructor; [intros [] | constructor]. }
  run_render useStatus w.
  repeat apply Forall_cons; try apply Forall_nil;
    (split;
     [ cbn; apply two; discriminate
     | intros name; cbn [prop props_of]; apply lookup_prop_first; cbn;
       apply two; discriminate ]).
Qed.

(** One more render: run [m], then the remaining ones from the store it
    left. *)
Lemma repeatM_S (W A : Type) (n : nat) (m : Render W A) (w : W) :
  repeatM (S n) m w =
  (fst (m w) :: fst (repeatM n m (snd (m w))), snd (repeatM n m (snd (m w)))).
Proof.
  cbn [repeatM]. unfold bind, ret.
  destruct (m w) as [a w']. cbn [fst snd].
  now destruct (repeatM n m w').
Qed.

(** A render is one call of the hook: the tree for the status it returned,
    and the store it left. *)
Lemma render_run
    (W Rest : Type) (useStatus : Render W (DaemonStatus Rest)) (w : W) :
  AutomaterializeDaemonStatusTag useStatus w =
  (tree_for (fst (useStatus w)), snd (useStatus w)).
Proof.
  unfold AutomaterializeDaemonStatusTag, bind, ret.
  now destruct (useStatus w) as [[p r] w'].
Qed.

(** X5: over [n] successive renders the component calls its hook once per
    render and nothing else touches the store: the store after [n] renders
    is the store after [n] calls of the hook, and the [k]-th tree is the
    tree for the [k]-th status the hook returned, whatever came before. *)
Theorem successive_renders
    (W Rest : Type) (useStatus : Render W (DaemonStatus Rest)) (n : nat) (w : W) :
  fst (repeatM n (AutomaterializeDaemonStatusTag useStatus) w) =
    map tree_for (fst (repeatM n useStatus w)) /\
  snd (repeatM n (AutomaterializeDaemonStatusTag useStatus) w) =
    snd (repeatM n useStatus w).
Proof.
  revert w. induction n as [| n IH]; intros w; [split; reflexivity |].
  rewrite !repeatM_S, render_run. cbn [fst snd map].
  destruct (IH (snd (useStatus w))) as [-> ->].
  split; reflexivity.
Qed.

(** X6: the label and the icon name always end in the same word: for one
    [x] among "off" and "on", the label is "Auto-materialize " followed by
    [x] and the icon is "toggle_" followed by [x]. *)
Theorem label_and_icon_same_word
    (W Rest : Type) (useStatus : Render W (DaemonStatus Rest)) (w : W) :
  exists x : string,
    (x = "off" \/ x = "on") /\
    (x = "off" <-> paused_at useStatus w = true) /\
    label_of (rendered useStatus w) = Some ("Auto-materialize " ++ x) /\
    tag_prop "icon" (rendered useStatus w) = Some (VString ("toggle_" ++ x)).
Proof.
  run_render useStatus w. destruct p.
  - exists "off". repeat split; auto.
  - exists "on". repeat split; auto; discriminate.
Qed.

(** Polls 0 and 4 return the same tree, and both report the daemon paused. *)
Lemma same_tree_same_paused_witness :
  rendered pollingStatus 0 = rendered pollingStatus 4 /\
  paused_at pollingStatus 0 = paused_at pollingStatus 4.
Proof.
  split; [reflexivity |].
  apply (same_tree_same_paused nat nat bool bool pollingStatus pollingStatus 0 4).
  reflexivity.
Defined.


(** Three polls in a row: paused, running, paused, and the counter at 3. *)
Example three_polls :
  map outcome_of (fst (repeatM 3 (AutomaterializeDaemonStatusTag pollingStatus) 0)) =
    [Some outcome_paused; Some outcome_running; Some outcome_paused] /\
  snd (repeatM 3 (AutomaterializeDaemonStatusTag pollingStatus) 0) = 3.
Proof. split; reflexivity. Qed.
